(** * EgStore: persistent settings records (easygui/boxes/egstore.py)

    A shallow embedding of the [EgStore] class.  An instance is a reference
    to its attribute dictionary ([__dict__]); dictionaries live in a heap so
    that copying and aliasing are visible; the file system maps paths to
    nodes; [pickle] and [repr] are collaborators given by their interface.
    A string is a sequence of 8-bit characters, each one code point: text
    outside Latin-1 is not represented. *)

From Stdlib Require Import ZArith String Ascii.
From Stdlib.Strings Require Import Byte.
From stdpp Require Import gmap strings list fin_maps.

Local Open Scope string_scope.
Local Open Scope list_scope.

(** ** Python values and exceptions *)

(** The attribute values a settings record holds. *)
Inductive pyval : Type :=
  | PyNone
  | PyBool (b : bool)
  | PyInt (z : Z)
  | PyStr (s : string).

#[global] Instance pyval_eq_dec : EqDecision pyval.
Proof. solve_decision. Defined.

(** The exceptions the module can surface.  [IOError] is [OSError]; its
    [errno] attribute may be [None]. *)
Inductive exn : Type :=
  | OSError (errno : option Z)
  | KeyError (key : string)
  | AttributeError (name : string)
  | TypeError
  | ValueError
  | PickleError (msg : string)
  | OverflowError
  | SystemError.

#[global] Instance exn_eq_dec : EqDecision exn.
Proof. solve_decision. Defined.

Module errno.
Definition ENOENT : Z := 2.
Definition EBADF : Z := 9.
Definition EACCES : Z := 13.
Definition ENOTDIR : Z := 20.
Definition EISDIR : Z := 21.
Definition ENAMETOOLONG : Z := 36.
End errno.

(** The not-found condition: [IOError] with [errno == errno.ENOENT]. *)
Definition NotFound : exn := OSError (Some errno.ENOENT).

(** ** The world: files and dictionary objects *)

Abbreviation dict := (gmap string pyval).
Abbreviation bytes := (list Byte.byte).

(** What a path, as the process spells it, names.  [RegularFile] is a file
    the process may read, write and remove; [LockedFile] is a regular file
    it has no rights on, every access to which raises [OSError] with the
    given [errno]; [NoParent] is a path whose directory is missing.  A path
    with no entry names nothing.  Each spelling of a path has its own entry:
    a write through one spelling is not carried to another name of the same
    file. *)
Inductive node : Type :=
  | NoParent
  | Directory
  | RegularFile (data : bytes)
  | LockedFile (errno : Z).

(** Dictionary objects are never freed: the heap is a list, an object's
    address is its index, and a new object goes at the end. *)
Record world : Type := World {
  files : gmap string node;
  heap : list dict
}.

Definition with_files (f : gmap string node) (w : world) : world :=
  World f (heap w).
Definition with_heap (h : list dict) (w : world) : world :=
  World (files w) h.

(** ** Computations: state with exceptions

    A raised exception keeps the effects done before it. *)
Definition M (A : Type) : Type := world → (exn + A) * world.

Definition ret {A} (a : A) : M A := λ w, (inr a, w).
Definition raise {A} (e : exn) : M A := λ w, (inl e, w).
Definition bind {A B} (c : M A) (k : A → M B) : M B :=
  λ w, match c w with
       | (inl e, w') => (inl e, w')
       | (inr a, w') => k a w'
       end.
Definition try_except {A} (c : M A) (handler : exn → M A) : M A :=
  λ w, match c w with
       | (inl e, w') => handler e w'
       | (inr a, w') => (inr a, w')
       end.
Definition lift {A} (r : exn + A) : M A :=
  match r with inl e => raise e | inr a => ret a end.

Notation "'let!' x ':=' c 'in' k" := (bind c (λ x, k))
  (at level 10, x name, c at level 100, k at level 200).
Notation "c ';;' k" := (bind c (λ _, k))
  (at level 100, k at level 200, right associativity).

(** *** Dictionary objects *)

Definition new_dict (d : dict) : M nat :=
  λ w, (inr (length (heap w)), with_heap (heap w ++ [d]) w).

Definition get_dict (l : nat) : M dict :=
  λ w, match heap w !! l with
       | Some d => (inr d, w)
       | None => (inl SystemError, w)
       end.

Definition set_dict (l : nat) (d : dict) : M unit :=
  λ w, match heap w !! l with
       | Some _ => (inr tt, with_heap (<[l:=d]> (heap w)) w)
       | None => (inl SystemError, w)
       end.

(** [d.copy()] *)
Definition dict_copy (l : nat) : M nat :=
  let! d := get_dict l in new_dict d.

(** [key in d] *)
Definition dict_contains (l : nat) (key : string) : M bool :=
  let! d := get_dict l in ret (bool_decide (is_Some (d !! key))).

(** [del d[key]] *)
Definition dict_delitem (l : nat) (key : string) : M unit :=
  let! d := get_dict l in
  match d !! key with
  | Some _ => set_dict l (delete key d)
  | None => raise (KeyError key)
  end.

(** [d[key] = value] *)
Definition dict_setitem (l : nat) (key : string) (value : pyval) : M unit :=
  let! d := get_dict l in set_dict l (<[key:=value]> d).

(** [d.update(other)]: the entries of [other] win. *)
Definition dict_update (l other : nat) : M unit :=
  let! o := get_dict other in
  let! d := get_dict l in
  set_dict l (o ∪ d).

(** [d.items()], in the order the dictionary iterates. *)
Definition dict_items (l : nat) : M (list (string * pyval)) :=
  let! d := get_dict l in ret (map_to_list d).

(** [self.name]: instances carry no class-level data attributes. *)
Definition getattr (self : nat) (name : string) : M pyval :=
  let! d := get_dict self in
  match d !! name with
  | Some v => ret v
  | None => raise (AttributeError name)
  end.

(** [self.name = value] *)
Definition setattr (self : nat) (name : string) (value : pyval) : M unit :=
  dict_setitem self name value.

(** *** Files *)

(** The limits of the platform on a path and on one of its components. *)
Module limits.
Definition PATH_MAX : nat := 4096.
Definition NAME_MAX : nat := 255.
End limits.

Definition is_slash (c : ascii) : bool := Ascii.eqb c "/"%char.
Definition is_nul (c : ascii) : bool := Ascii.eqb c "000"%char.

(** The components of a path, split at ["/"]. *)
Fixpoint components_from (current p : string) : list string :=
  match p with
  | EmptyString => [current]
  | String c rest =>
      if is_slash c then current :: components_from EmptyString rest
      else components_from (current +:+ String c EmptyString) rest
  end.
Definition components (p : string) : list string :=
  components_from EmptyString p.

(** The directories a path goes through: what stands before each ["/"]. *)
Fixpoint ancestors_from (seen p : string) : list string :=
  match p with
  | EmptyString => []
  | String c rest =>
      if is_slash c then seen :: ancestors_from (seen +:+ "/") rest
      else ancestors_from (seen +:+ String c EmptyString) rest
  end.
Definition ancestors (p : string) : list string :=
  ancestors_from EmptyString p.

(** A component that names no entry of its own: empty (a doubled or a
    trailing ["/"]), ["."] or [".."]. *)
Definition is_dots (c : string) : bool :=
  String.eqb c EmptyString || String.eqb c "." || String.eqb c "..".

(** The components after the leading ["/"] of an absolute path. *)
Definition named_components (p : string) : list string :=
  match components p with
  | c :: rest => if String.eqb c EmptyString then rest else c :: rest
  | [] => []
  end.

(** A path spelled plainly: every component is a name.  What another
    spelling names rests on other entries. *)
Definition is_plain (p : string) : bool :=
  forallb (λ c, negb (is_dots c)) (named_components p).

(** The bytes a string takes in the file system's encoding: two for a
    character past ASCII. *)
Definition encoded_length (s : string) : nat :=
  list_sum ((λ c, if (nat_of_ascii c <? 128)%nat then 1 else 2)
            <$> list_ascii_of_string s).

(** The last component of a path, and whether it stands for the
    directory before it: the path ends in ["/"], ["/."] or ["/.."]. *)
Definition last_component (p : string) : string :=
  default EmptyString (last (components p)).
Definition ends_in_dots (p : string) : bool := is_dots (last_component p).

Definition is_directory (n : option node) : bool :=
  match n with
  | Some Directory => true
  | _ => false
  end.

(** The directory a path lies in is listed as one. *)
Definition in_directory (p : string) (w : world) : bool :=
  match last (ancestors p) with
  | Some a => is_directory (files w !! a)
  | None => false
  end.

Definition is_regular (n : option node) : bool :=
  match n with
  | Some (RegularFile _) | Some (LockedFile _) => true
  | _ => false
  end.

(** Why [open] on a path with no entry is not a plain not-found, if it
    is not: an embedded NUL is a [ValueError] before any system call; a path
    or a component over the limit is [ENAMETOOLONG]; the current directory,
    its parent and the root are directories, [EISDIR], and so is a path
    that ends in dots under a directory; a regular file where a directory
    is needed is [ENOTDIR]. *)
Definition path_error (p : string) (w : world) : option exn :=
  if existsb is_nul (list_ascii_of_string p) then Some ValueError
  else if bool_decide (limits.PATH_MAX ≤ encoded_length p)%nat
  then Some (OSError (Some errno.ENAMETOOLONG))
  else if negb (String.eqb p EmptyString) && forallb is_dots (components p)
  then Some (OSError (Some errno.EISDIR))
  else if existsb (λ a, is_regular (files w !! a)) (ancestors p)
  then Some (OSError (Some errno.ENOTDIR))
  else if ends_in_dots p && in_directory p w
  then Some (OSError (Some errno.EISDIR))
  else if existsb (λ c, bool_decide (limits.NAME_MAX < encoded_length c)%nat)
                  (components p)
  then Some (OSError (Some errno.ENAMETOOLONG))
  else None.

(** An integer where a path is expected is a file descriptor: one that
    does not fit a C [int] is an [OverflowError]; the model has no open
    descriptors, the standard streams included. *)
Definition fits_int (z : Z) : bool :=
  bool_decide (- 2 ^ 31 ≤ z < 2 ^ 31)%Z.

(** The path a value denotes for [open]: [None] is a [TypeError], a
    negative descriptor a [ValueError], any other descriptor [EBADF]. *)
Definition as_path (v : pyval) : exn + string :=
  match v with
  | PyStr p => inr p
  | PyNone => inl TypeError
  | PyBool _ => inl (OSError (Some errno.EBADF))
  | PyInt z =>
      if fits_int z
      then if bool_decide (z < 0)%Z then inl ValueError
           else inl (OSError (Some errno.EBADF))
      else inl OverflowError
  end.

(** [with open(path, 'rb') as f: f.read()] *)
Definition open_rb (path : pyval) : M bytes :=
  let! p := lift (as_path path) in
  λ w, match files w !! p with
       | None => (inl (default NotFound (path_error p w)), w)
       | Some NoParent => (inl NotFound, w)
       | Some Directory => (inl (OSError (Some errno.EISDIR)), w)
       | Some (LockedFile en) => (inl (OSError (Some en)), w)
       | Some (RegularFile data) => (inr data, w)
       end.

(** [open(path, 'wb')]: creates the file or truncates it; yields the
    handle.  No file is created under a name that ends in dots: a trailing
    ["/"] asks for a directory, [EISDIR]; the rest is a not-found. *)
Definition open_wb (path : pyval) : M string :=
  let! p := lift (as_path path) in
  λ w, match files w !! p with
       | None =>
           match path_error p w with
           | Some e => (inl e, w)
           | None =>
               if ends_in_dots p then
                 if String.eqb (last_component p) EmptyString
                    && negb (String.eqb p EmptyString)
                 then (inl (OSError (Some errno.EISDIR)), w)
                 else (inl NotFound, w)
               else (inr p, with_files (<[p:=RegularFile []]> (files w)) w)
           end
       | Some NoParent => (inl NotFound, w)
       | Some Directory => (inl (OSError (Some errno.EISDIR)), w)
       | Some (LockedFile en) => (inl (OSError (Some en)), w)
       | Some (RegularFile _) =>
           (inr p, with_files (<[p:=RegularFile []]> (files w)) w)
       end.

(** [f.write(data)] on a handle from [open_wb]. *)
Definition file_write (f : string) (data : bytes) : M unit :=
  λ w, (inr tt, with_files (<[f:=RegularFile data]> (files w)) w).

(** [os.path.isfile(path)]: an [OSError] or a [ValueError] of [os.stat]
    is a [False]. *)
Definition os_path_isfile (path : pyval) : M bool :=
  match path with
  | PyStr p => λ w, (inr (is_regular (files w !! p)), w)
  | PyNone => raise TypeError
  | PyBool _ => ret false
  | PyInt z => if fits_int z then ret false else raise OverflowError
  end.

(** [os.remove(path)] *)
Definition os_remove (path : pyval) : M unit :=
  match path with
  | PyStr p => λ w, match files w !! p with
                    | Some (RegularFile _) =>
                        (inr tt, with_files (delete p (files w)) w)
                    | Some (LockedFile en) => (inl (OSError (Some en)), w)
                    | Some Directory => (inl (OSError (Some errno.EISDIR)), w)
                    | Some NoParent => (inl NotFound, w)
                    | None => (inl (default NotFound (path_error p w)), w)
                    end
  | _ => raise TypeError
  end.

(** ** Strings as [__str__] uses them *)

Definition newline : string := String (ascii_of_nat 10) EmptyString.

(** [s.ljust(width)] *)
Definition ljust (s : string) (width : nat) : string :=
  s +:+ string_of_list_ascii (replicate (width - String.length s) " "%char).

(** [sep.join(parts)] *)
Fixpoint join (sep : string) (parts : list string) : string :=
  match parts with
  | [] => EmptyString
  | [s] => s
  | s :: rest => s +:+ sep +:+ join sep rest
  end.

(** [max(lengths)]: a [ValueError] on an empty sequence. *)
Definition py_max (lengths : list nat) : exn + nat :=
  match lengths with
  | [] => inl ValueError
  | n :: rest => inr (foldl Nat.max n rest)
  end.

(** [sorted(keys)] on strings: ascending by code point. *)
Fixpoint insert_sorted (key : string) (keys : list string) : list string :=
  match keys with
  | [] => [key]
  | k :: rest =>
      if String.leb key k then key :: keys else k :: insert_sorted key rest
  end.
Definition py_sorted (keys : list string) : list string :=
  foldr insert_sorted [] keys.

(** [key, value = s] with [s] a string: its characters are the items, and
    there must be exactly two. *)
Definition unpack_pair (s : string) : exn + (string * string) :=
  match s with
  | String a (String b EmptyString) =>
      inr (String a EmptyString, String b EmptyString)
  | _ => inl ValueError
  end.

(** ** The collaborators: pickle and repr *)

(** [pickle] as the module uses it: the state dictionary of an instance goes
    to bytes and back.  [pickle_loads] yields the state stored in the stream,
    before the instance's [__setstate__] sees it; either direction may raise.
    [pickle.dump] writes to the file as it goes: when it raises, some bytes
    are already out, and [pickle_dumps] gives them with the exception.  What
    was dumped loads back. *)
Class Pickler : Type := {
  pickle_dumps : dict → exn * bytes + bytes;
  pickle_loads : bytes → exn + dict;
  pickle_roundtrip : ∀ state data,
    pickle_dumps state = inr data → pickle_loads data = inr state
}.

(** ** EgStore *)

Section EgStore.
Context `{Pickler}.
(** [repr(value)], a builtin. *)
Variable py_repr : pyval → string.

Definition __getstate__ (self : nat) : M nat :=
  let! state := dict_copy self in
  dict_delitem state "_filename";;
  ret state.

Definition __setstate__ (self state : nat) : M unit :=
  let! has := dict_contains state "_filename" in
  (if has then dict_delitem state "_filename" else ret tt);;
  dict_update self state.

(** [pickle.dump(self, f)]: the state comes from [__getstate__]. *)
Definition pickle_dump (self : nat) (f : string) : M unit :=
  let! state := __getstate__ self in
  let! d := get_dict state in
  match pickle_dumps d with
  | inr data => file_write f data
  | inl (e, written) => file_write f written;; raise e
  end.

(** [pickle.load(f)]: a new instance, made without [__init__], is given the
    stored state through [__setstate__]. *)
Definition pickle_load (data : bytes) : M nat :=
  let! raw := lift (pickle_loads data) in
  let! inst := new_dict ∅ in
  let! state := new_dict raw in
  __setstate__ inst state;;
  ret inst.

(** The generator handed to [self.__dict__.update] in [restore], consumed
    item by item: [key in self.__dict__] is tested as each item comes. *)
Fixpoint update_present (self : nat) (items : list (string * pyval)) : M unit :=
  match items with
  | [] => ret tt
  | (key, value) :: rest =>
      let! present := dict_contains self key in
      (if present then dict_setitem self key value else ret tt);;
      update_present self rest
  end.

Definition restore (self : nat) : M nat :=
  let! filename := getattr self "_filename" in
  let! data := open_rb filename in
  let! store := pickle_load data in
  let! items := dict_items store in
  update_present self items;;
  ret self.

Definition __init__ (self : nat) (filename : pyval) : M unit :=
  setattr self "_filename" filename;;
  try_except (restore self;; ret tt)
    (λ e, match e with
          | OSError en =>
              if bool_decide (en ≠ Some errno.ENOENT) then raise e else ret tt
          | _ => raise e
          end).

(** A subclass sets its defaults on the new instance, then calls
    [EgStore.__init__]. *)
Definition construct (filename : pyval) (defaults : dict) : M nat :=
  let! self := new_dict defaults in
  __init__ self filename;;
  ret self.

Definition store (self : nat) : M unit :=
  let! filename := getattr self "_filename" in
  let! f := open_wb filename in
  pickle_dump self f.

Definition kill (self : nat) : M unit :=
  let! filename := getattr self "_filename" in
  let! isfile := os_path_isfile filename in
  if isfile then
    let! filename := getattr self "_filename" in os_remove filename
  else ret tt.

(** The generator joined in [__str__]: each item of [sorted(keys)] is
    unpacked into [key, value] before the filter sees it. *)
Fixpoint str_lines (width : nat) (keys : list string) : exn + list string :=
  match keys with
  | [] => inr []
  | item :: rest =>
      match unpack_pair item with
      | inl e => inl e
      | inr (key, value) =>
          match str_lines width rest with
          | inl e => inl e
          | inr lines =>
              if bool_decide (key ≠ "_filename")
              then inr ((ljust key width +:+ " : " +:+ py_repr (PyStr value)) :: lines)
              else inr lines
          end
      end
  end.

Definition __str__ (self : nat) : M string :=
  let! d := get_dict self in
  let keys := (map_to_list d).*1 in
  let! width :=
    lift (py_max (String.length <$> filter (λ key, key ≠ "_filename") keys)) in
  let! lines := lift (str_lines width (py_sorted keys)) in
  ret (join newline lines).

End EgStore.

(** [__repr__], with [self.__class__.__name__] the name of the subclass
    the instance was made from. *)
Section Repr.
Variable py_repr : pyval → string.
Variable class_name : string.

Definition __repr__ (self : nat) : M string :=
  let! filename := getattr self "_filename" in
  ret (class_name +:+ "(" +:+ py_repr filename +:+ ")").

End Repr.

(** ** A serializer meeting the interface

    The state's code as a positive number, written one bit per byte. *)

Definition pyval_to_sum (v : pyval) : unit + bool + Z + string :=
  match v with
  | PyNone => inl (inl (inl tt))
  | PyBool b => inl (inl (inr b))
  | PyInt z => inl (inr z)
  | PyStr s => inr s
  end.
Definition pyval_of_sum (x : unit + bool + Z + string) : pyval :=
  match x with
  | inl (inl (inl _)) => PyNone
  | inl (inl (inr b)) => PyBool b
  | inl (inr z) => PyInt z
  | inr s => PyStr s
  end.

#[global] Instance pyval_countable : Countable pyval.
Proof.
  apply (inj_countable' pyval_to_sum pyval_of_sum). by intros [].
Defined.

Fixpoint bits_of_pos (p : positive) : bytes :=
  match p with
  | xH => []
  | xO q => x00 :: bits_of_pos q
  | xI q => x01 :: bits_of_pos q
  end.
Fixpoint pos_of_bits (data : bytes) : option positive :=
  match data with
  | [] => Some xH
  | x00 :: rest => xO <$> pos_of_bits rest
  | x01 :: rest => xI <$> pos_of_bits rest
  | _ => None
  end.

Definition bit_dumps (state : dict) : exn * bytes + bytes :=
  inr (bits_of_pos (encode state)).
Definition bit_loads (data : bytes) : exn + dict :=
  match pos_of_bits data ≫= decode with
  | Some state => inr state
  | None => inl (PickleError "invalid load key")
  end.

(** What [bit_dumps] wrote, [bit_loads] reads back. *)
#[global] Instance bit_pickler : Pickler.
Proof.
  refine {| pickle_dumps := bit_dumps; pickle_loads := bit_loads |}.
  assert (∀ p, pos_of_bits (bits_of_pos p) = Some p) as Hbits.
  { induction p as [q IH|q IH|]; simpl; by rewrite ?IH. }
  unfold bit_dumps, bit_loads. intros state data [= <-].
  rewrite Hbits. simpl. by rewrite decode_encode.
Defined.

(** A serializer that can pickle nothing: it gives up after the protocol
    header. *)
Definition refuse_dumps (state : dict) : exn * bytes + bytes :=
  inl (PickleError "cannot pickle", [x80; x04]).
Definition refuse_loads (data : bytes) : exn + dict :=
  inl (PickleError "invalid load key").

Definition refusing_pickler : Pickler :=
  {| pickle_dumps := refuse_dumps; pickle_loads := refuse_loads;
     pickle_roundtrip := λ state data (Hdumps : refuse_dumps state = inr data),
       match Hdumps in _ = r
             return match r with
                    | inr _ => refuse_loads data = inr state
                    | inl _ => True
                    end
       with eq_refl => I end |}.

(** ** Notions the properties are stated with *)

(** One item of the update: an entry overwrites only a key that is there. *)
Definition merge_item (d : dict) (item : string * pyval) : dict :=
  if bool_decide (is_Some (d !! item.1)) then <[item.1:=item.2]> d else d.

Definition merge_items (d : dict) (items : list (string * pyval)) : dict :=
  foldl merge_item d items.

(** The mapping [restore] merges from: the loaded instance's [__dict__],
    which is the stored state without any ["_filename"] entry. *)
Definition loaded_fields (raw : dict) : dict := delete "_filename" raw.

(** The record after a successful [restore]. *)
Definition restored (d raw : dict) : dict :=
  merge_items d (map_to_list (loaded_fields raw)).

(** [open] on the path is a not-found: the platform takes the path, and
    it names nothing or its directory is missing. *)
Definition names_nothing (p : string) (w : world) : Prop :=
  path_error p w = None ∧
  (files w !! p = None ∨ files w !! p = Some NoParent).

(** The backing file does not exist: the path is spelled plainly and
    [open] on it is a not-found. *)
Definition absent (p : string) (w : world) : Prop :=
  is_plain p = true ∧ names_nothing p w.


(** [except IOError as e: if e.errno != errno.ENOENT: raise] *)
Definition recovered (e : exn) : bool :=
  match e with
  | OSError en => bool_decide (en = Some errno.ENOENT)
  | _ => false
  end.

(** The world once [open(..., 'wb')] has made or emptied the file and
    [pickle.dump] has run on the state [state]. *)
Definition stored `{Pickler} (fn : string) (state : dict) (w : world)
    : (exn + unit) * world :=
  match pickle_dumps state with
  | inr data =>
      (inr tt, World (<[fn:=RegularFile data]> (files w)) (heap w ++ [state]))
  | inl (e, written) =>
      (inl e, World (<[fn:=RegularFile written]> (files w)) (heap w ++ [state]))
  end.

(** [kill] on a record with a string file name: the file goes if the
    path names a regular file, and nothing else changes. *)
Definition killed (fn : string) (w : world) : world :=
  match files w !! fn with
  | Some (RegularFile _) => with_files (delete fn (files w)) w
  | _ => w
  end.

(** ** The class docstring's scenario *)

Definition settings : dict :=
  {[ "_filename" := PyStr "app_settings"; "user_id" := PyStr "obama_barak";
     "target_server" := PyStr "whitehouse1" ]}.

Definition settings_defaults : dict :=
  {[ "user_id" := PyStr EmptyString; "target_server" := PyStr EmptyString ]}.

(** A [Settings] instance in memory, nothing on disk. *)
Definition fresh_world : world := World ∅ [settings].

(** A stored state from another version of the program: one field the
    class no longer has, and a ["_filename"] entry of its own. *)
Definition foreign_state : dict :=
  {[ "_filename" := PyStr "elsewhere"; "user_id" := PyStr "biden_joe";
     "obsolete" := PyInt 1 ]}.
Definition foreign_data : bytes := bits_of_pos (encode foreign_state).
Definition saved_world : world :=
  World {[ "app_settings" := RegularFile foreign_data ]} [settings].

(** The path names a directory. *)
Definition directory_world : world :=
  World {[ "app_settings" := Directory ]} [settings].

(** * Properties *)

(** ** Running computations *)

Lemma bind_ok {A B} (c : M A) (k : A → M B) w a w' :
  c w = (inr a, w') → bind c k w = k a w'.
Proof. unfold bind. by intros ->. Qed.

Lemma bind_raise {A B} (c : M A) (k : A → M B) w e w' :
  c w = (inl e, w') → bind c k w = (inl e, w').
Proof. unfold bind. by intros ->. Qed.

Lemma with_heap_id w : with_heap (heap w) w = w.
Proof. by destruct w. Qed.

Lemma get_dict_ok l d w : heap w !! l = Some d → get_dict l w = (inr d, w).
Proof. unfold get_dict. by intros ->. Qed.

Lemma set_dict_ok l d d' w :
  heap w !! l = Some d →
  set_dict l d' w = (inr tt, with_heap (<[l:=d']> (heap w)) w).
Proof. unfold set_dict. by intros ->. Qed.

Lemma getattr_ok self d name v w :
  heap w !! self = Some d → d !! name = Some v →
  getattr self name w = (inr v, w).
Proof.
  intros Hd Hv. unfold getattr.
  rewrite (bind_ok _ _ _ _ _ (get_dict_ok _ _ _ Hd)). by rewrite Hv.
Qed.

Lemma dict_contains_ok l d key w :
  heap w !! l = Some d →
  dict_contains l key w = (inr (bool_decide (is_Some (d !! key))), w).
Proof.
  intros Hd. unfold dict_contains.
  by rewrite (bind_ok _ _ _ _ _ (get_dict_ok _ _ _ Hd)).
Qed.

Lemma dict_setitem_ok l d key v w :
  heap w !! l = Some d →
  dict_setitem l key v w
  = (inr tt, with_heap (<[l:=<[key:=v]> d]> (heap w)) w).
Proof.
  intros Hd. unfold dict_setitem.
  rewrite (bind_ok _ _ _ _ _ (get_dict_ok _ _ _ Hd)). by eapply set_dict_ok.
Qed.

(** ** The merge of [restore] *)

Lemma merge_item_lookup d key value k :
  merge_item d (key, value) !! k
  = match d !! k with
    | Some x => Some (if bool_decide (k = key) then value else x)
    | None => None
    end.
Proof.
  unfold merge_item. simpl. case_bool_decide as Hin.
  - rewrite lookup_insert. case_decide as Hk.
    + subst k. destruct Hin as [x ->]. by rewrite bool_decide_true.
    + rewrite bool_decide_false by done. by destruct (d !! k).
  - destruct (d !! k) eqn:Hk; [|done].
    rewrite bool_decide_false; [done|]. intros ->. apply Hin. eauto.
Qed.

Lemma merge_items_lookup items : ∀ (d : dict) k,
  NoDup items.*1 →
  merge_items d items !! k
  = match d !! k with
    | Some x => Some (default x ((list_to_map items : dict) !! k))
    | None => None
    end.
Proof.
  induction items as [|[key value] rest IH]; intros d k Hnd.
  - simpl. rewrite lookup_empty. by destruct (d !! k).
  - apply NoDup_cons in Hnd as [Hkey Hnd].
    change (merge_items d ((key, value) :: rest))
      with (merge_items (merge_item d (key, value)) rest).
    rewrite IH by done. rewrite merge_item_lookup. simpl.
    destruct (d !! k) as [x|]; [|done]. f_equal.
    case_bool_decide as Hk.
    + subst k. rewrite lookup_insert_eq.
      by rewrite (not_elem_of_list_to_map_1 _ _ Hkey).
    + by rewrite lookup_insert_ne.
Qed.

(** The record after a merge with the loaded mapping [P]. *)
Lemma merge_map_lookup (d P : dict) k :
  merge_items d (map_to_list P) !! k
  = match d !! k with
    | Some x => Some (default x (P !! k))
    | None => None
    end.
Proof.
  rewrite merge_items_lookup by apply NoDup_fst_map_to_list.
  by rewrite list_to_map_to_list.
Qed.

Lemma merge_map_dom (d P : dict) : dom (merge_items d (map_to_list P)) = dom d.
Proof.
  apply set_eq. intros k. rewrite !elem_of_dom, merge_map_lookup.
  destruct (d !! k); split; intros [? ?]; eauto; done.
Qed.

(** ** The methods, run *)

Section Runs.
Context `{Pickler}.

Lemma update_present_run items : ∀ self d w,
  heap w !! self = Some d →
  update_present self items w
  = (inr tt, with_heap (<[self:=merge_items d items]> (heap w)) w).
Proof.
  induction items as [|[key value] rest IH]; intros self d w Hd.
  - simpl. rewrite list_insert_id by done. by rewrite with_heap_id.
  - simpl. rewrite (bind_ok _ _ _ _ _ (dict_contains_ok _ _ key _ Hd)).
    change (merge_items d ((key, value) :: rest))
      with (merge_items (merge_item d (key, value)) rest).
    unfold merge_item. simpl. destruct (bool_decide _).
    + rewrite (bind_ok _ _ _ _ _ (dict_setitem_ok _ _ key value _ Hd)).
      rewrite (IH self (<[key:=value]> d)).
      * simpl. by rewrite list_insert_insert_eq.
      * simpl. apply list_lookup_insert_eq. by eapply lookup_lt_Some.
    + rewrite (bind_ok _ _ w tt w) by done. by apply IH.
Qed.

(** [__getstate__] leaves every object in place and adds the copy. *)
Lemma getstate_run self d w :
  heap w !! self = Some d → is_Some (d !! "_filename") →
  __getstate__ self w
  = (inr (length (heap w)),
     with_heap (heap w ++ [delete "_filename" d]) w).
Proof.
  intros Hd [v Hv]. unfold __getstate__, dict_copy.
  rewrite (bind_ok _ _ w (length (heap w)) (with_heap (heap w ++ [d]) w)).
  2:{ by rewrite (bind_ok _ _ _ _ _ (get_dict_ok _ _ _ Hd)). }
  assert (heap (with_heap (heap w ++ [d]) w) !! length (heap w) = Some d)
    as Hnew by (simpl; apply list_lookup_middle; done).
  unfold dict_delitem.
  rewrite (bind_ok _ _ _ tt
    (with_heap (heap w ++ [delete "_filename" d]) w)); [done|].
  rewrite (bind_ok _ _ _ _ _ (get_dict_ok _ _ _ Hnew)). rewrite Hv.
  rewrite (set_dict_ok _ _ _ _ Hnew). simpl. unfold with_heap. simpl.
  do 2 f_equal. rewrite insert_app_r_alt by done.
  by rewrite Nat.sub_diag.
Qed.

Lemma getstate_raise self d w :
  heap w !! self = Some d → d !! "_filename" = None →
  __getstate__ self w
  = (inl (KeyError "_filename"), with_heap (heap w ++ [d]) w).
Proof.
  intros Hd Hv. unfold __getstate__, dict_copy.
  rewrite (bind_ok _ _ w (length (heap w)) (with_heap (heap w ++ [d]) w)).
  2:{ by rewrite (bind_ok _ _ _ _ _ (get_dict_ok _ _ _ Hd)). }
  assert (heap (with_heap (heap w ++ [d]) w) !! length (heap w) = Some d)
    as Hnew by (simpl; apply list_lookup_middle; done).
  unfold dict_delitem. apply bind_raise.
  rewrite (bind_ok _ _ _ _ _ (get_dict_ok _ _ _ Hnew)). by rewrite Hv.
Qed.

Lemma setstate_run inst state raw w :
  inst ≠ state →
  heap w !! inst = Some ∅ → heap w !! state = Some raw →
  __setstate__ inst state w
  = (inr tt,
     with_heap (<[inst:=loaded_fields raw]>
                  (<[state:=loaded_fields raw]> (heap w))) w).
Proof.
  intros Hne Hinst Hstate. unfold __setstate__.
  rewrite (bind_ok _ _ _ _ _ (dict_contains_ok _ _ "_filename" _ Hstate)).
  assert (∃ w1, (if bool_decide (is_Some (raw !! "_filename"))
                 then dict_delitem state "_filename" else ret tt) w
                = (inr tt, w1)
                ∧ w1 = with_heap (<[state:=loaded_fields raw]> (heap w)) w)
    as (w1 & Hstep & ->).
  { eexists. split; [|done]. case_bool_decide as Hin.
    - destruct Hin as [v Hv]. unfold dict_delitem.
      rewrite (bind_ok _ _ _ _ _ (get_dict_ok _ _ _ Hstate)), Hv.
      by eapply set_dict_ok.
    - unfold ret, loaded_fields. rewrite delete_id.
      + rewrite list_insert_id by done. by rewrite with_heap_id.
      + by apply eq_None_not_Some. }
  rewrite (bind_ok _ _ _ _ _ Hstep). unfold dict_update.
  assert (heap (with_heap (<[state:=loaded_fields raw]> (heap w)) w) !! state
          = Some (loaded_fields raw)) as Hs1.
  { simpl. apply list_lookup_insert_eq. by eapply lookup_lt_Some. }
  assert (heap (with_heap (<[state:=loaded_fields raw]> (heap w)) w) !! inst
          = Some ∅) as Hi1.
  { simpl. by rewrite list_lookup_insert_ne. }
  rewrite (bind_ok _ _ _ _ _ (get_dict_ok _ _ _ Hs1)).
  rewrite (bind_ok _ _ _ _ _ (get_dict_ok _ _ _ Hi1)).
  rewrite (set_dict_ok _ _ _ _ Hi1). simpl.
  by rewrite (right_id_L ∅ (∪)).
Qed.

Lemma pickle_load_run data raw w :
  pickle_loads data = inr raw →
  pickle_load data w
  = (inr (length (heap w)),
     with_heap (heap w ++ [loaded_fields raw; loaded_fields raw]) w).
Proof.
  intros Hraw. unfold pickle_load. rewrite Hraw. simpl.
  unfold bind at 1. simpl. unfold bind at 1. simpl. unfold bind at 1. simpl.
  set (h := heap w).
  set (w2 := with_heap ((h ++ [∅]) ++ [raw]) (with_heap (h ++ [∅]) w)).
  assert (length h ≠ length (h ++ [∅])) as Hne
    by (rewrite length_app; simpl; lia).
  assert (heap w2 !! length h = Some ∅) as Hinst.
  { simpl. rewrite <- (assoc_L (++)). by apply list_lookup_middle. }
  assert (heap w2 !! length (h ++ [∅]) = Some raw) as Hstate.
  { simpl. by apply list_lookup_middle. }
  rewrite (bind_ok _ _ _ _ _ (setstate_run _ _ _ _ Hne Hinst Hstate)).
  unfold ret, w2, with_heap. simpl. do 2 f_equal.
  rewrite (insert_app_r_alt (h ++ [∅]) [raw]) by done.
  rewrite Nat.sub_diag. simpl.
  rewrite <- (assoc_L (++)). simpl.
  rewrite insert_app_r_alt by done. by rewrite Nat.sub_diag.
Qed.

Lemma pickle_load_raise data e w :
  pickle_loads data = inl e → pickle_load data w = (inl e, w).
Proof. intros Hraw. unfold pickle_load. by rewrite Hraw. Qed.

Lemma open_rb_ok p data w :
  files w !! p = Some (RegularFile data) →
  open_rb (PyStr p) w = (inr data, w).
Proof. intros Hp. unfold open_rb, bind. simpl. by rewrite Hp. Qed.

Lemma open_rb_absent p w :
  names_nothing p w → open_rb (PyStr p) w = (inl NotFound, w).
Proof.
  intros [Herr [Hp|Hp]]; unfold open_rb, bind; simpl; by rewrite Hp, ?Herr.
Qed.

Lemma restore_ok self d fn data raw w :
  heap w !! self = Some d → d !! "_filename" = Some (PyStr fn) →
  files w !! fn = Some (RegularFile data) → pickle_loads data = inr raw →
  restore self w
  = (inr self,
     with_heap (<[self:=restored d raw]>
                  (heap w ++ [loaded_fields raw; loaded_fields raw])) w).
Proof.
  intros Hd Hfn Hfile Hraw. unfold restore.
  rewrite (bind_ok _ _ _ _ _ (getattr_ok _ _ _ _ _ Hd Hfn)).
  rewrite (bind_ok _ _ _ _ _ (open_rb_ok _ _ _ Hfile)).
  rewrite (bind_ok _ _ _ _ _ (pickle_load_run _ _ _ Hraw)).
  set (P := loaded_fields raw). set (w1 := with_heap _ w).
  assert (heap w1 !! length (heap w) = Some P) as Hstore
    by (simpl; by apply list_lookup_middle).
  assert (heap w1 !! self = Some d) as Hself.
  { simpl. rewrite lookup_app_l; [done|]. by eapply lookup_lt_Some. }
  unfold dict_items.
  rewrite (bind_ok _ _ w1 (map_to_list P) w1)
    by (by rewrite (bind_ok _ _ _ _ _ (get_dict_ok _ _ _ Hstore))).
  by rewrite (bind_ok _ _ _ _ _ (update_present_run _ _ _ _ Hself)).
Qed.

(** Every run of [restore]: it raises and leaves the world as it was, or
    the file held a loadable state and the merge took place. *)
Lemma restore_inv self w :
  (∃ e, restore self w = (inl e, w)) ∨
  (∃ d fn data raw,
      heap w !! self = Some d ∧ d !! "_filename" = Some (PyStr fn) ∧
      files w !! fn = Some (RegularFile data) ∧ pickle_loads data = inr raw).
Proof.
  destruct (heap w !! self) as [d|] eqn:Hd.
  2:{ left. eexists. unfold restore, getattr. apply bind_raise, bind_raise.
      unfold get_dict. by rewrite Hd. }
  destruct (d !! "_filename") as [v|] eqn:Hv.
  2:{ left. eexists. unfold restore. apply bind_raise. unfold getattr.
      rewrite (bind_ok _ _ _ _ _ (get_dict_ok _ _ _ Hd)). by rewrite Hv. }
  assert (∀ e, open_rb v w = (inl e, w) → ∃ e, restore self w = (inl e, w))
    as Hopen.
  { intros e He. exists e. unfold restore.
    rewrite (bind_ok _ _ _ _ _ (getattr_ok _ _ _ _ _ Hd Hv)).
    by apply bind_raise. }
  destruct (as_path v) as [e|fn0] eqn:Hpath.
  { left. apply (Hopen e). unfold open_rb, bind. by rewrite Hpath. }
  destruct v as [|b|z|fn]; try done.
  { simpl in Hpath. by destruct (fits_int z), (bool_decide (z < 0)%Z). }
  clear fn0 Hpath.
  destruct (files w !! fn) as [[| |data|en]|] eqn:Hfile;
    try (left; eapply Hopen; unfold open_rb, bind; simpl; by rewrite Hfile).
  destruct (pickle_loads data) as [e|raw] eqn:Hraw.
  - left. exists e. unfold restore.
    rewrite (bind_ok _ _ _ _ _ (getattr_ok _ _ _ _ _ Hd Hv)).
    rewrite (bind_ok _ _ _ _ _ (open_rb_ok _ _ _ Hfile)).
    by apply bind_raise, pickle_load_raise.
  - right. by exists d, fn, data, raw.
Qed.

Lemma restore_absent self d fn w :
  heap w !! self = Some d → d !! "_filename" = Some (PyStr fn) →
  names_nothing fn w → restore self w = (inl NotFound, w).
Proof.
  intros Hd Hfn Habs. unfold restore.
  rewrite (bind_ok _ _ _ _ _ (getattr_ok _ _ _ _ _ Hd Hfn)).
  by apply bind_raise, open_rb_absent.
Qed.

Lemma recovered_NotFound e : recovered e = true ↔ e = NotFound.
Proof.
  destruct e; simpl; try (split; [done|by intros [=]]).
  rewrite bool_decide_eq_true. unfold NotFound. split; congruence.
Qed.

Lemma init_run self d filename w :
  heap w !! self = Some d →
  __init__ self filename w
  = match restore self
            (with_heap (<[self:=<["_filename":=filename]> d]> (heap w)) w) with
    | (inr _, w') => (inr tt, w')
    | (inl e, w') => if recovered e then (inr tt, w') else (inl e, w')
    end.
Proof.
  intros Hd. unfold __init__, setattr.
  rewrite (bind_ok _ _ _ _ _ (dict_setitem_ok _ _ _ _ _ Hd)).
  unfold try_except, bind at 1.
  destruct (restore self _) as [[e|r] w']; [|done].
  destruct e as [en| | | | | | |]; simpl; try done.
  destruct (decide (en = Some errno.ENOENT)) as [Hen|Hen].
  - by rewrite bool_decide_false, bool_decide_true by tauto.
  - by rewrite bool_decide_true, bool_decide_false by tauto.
Qed.

Lemma construct_run filename defaults w :
  construct filename defaults w
  = match __init__ (length (heap w)) filename
            (with_heap (heap w ++ [defaults]) w) with
    | (inr _, w') => (inr (length (heap w)), w')
    | (inl e, w') => (inl e, w')
    end.
Proof.
  unfold construct, bind at 1, new_dict. unfold bind.
  by destruct (__init__ _ _ _) as [[e|[]] w'].
Qed.

(** The path can be opened for writing: it names a file of the process,
    or nothing in a directory that exists. *)
Lemma store_run self d fn w :
  heap w !! self = Some d → d !! "_filename" = Some (PyStr fn) →
  (files w !! fn = None ∧ path_error fn w = None ∧ ends_in_dots fn = false) ∨
  (∃ old, files w !! fn = Some (RegularFile old)) →
  store self w = stored fn (delete "_filename" d) w.
Proof.
  intros Hd Hfn Hfile. unfold store.
  rewrite (bind_ok _ _ _ _ _ (getattr_ok _ _ _ _ _ Hd Hfn)).
  rewrite (bind_ok _ _ w fn
    (with_files (<[fn:=RegularFile []]> (files w)) w)).
  2:{ unfold open_wb, bind. simpl.
      destruct Hfile as [(-> & -> & ->)|[old ->]]; done. }
  unfold pickle_dump. set (w1 := with_files _ w).
  assert (heap w1 !! self = Some d) as Hd1 by done.
  rewrite (bind_ok _ _ _ _ _ (getstate_run _ _ _ Hd1 (mk_is_Some _ _ Hfn))).
  set (state := delete "_filename" d). set (w2 := with_heap _ w1).
  assert (heap w2 !! length (heap w1) = Some state) as Hst
    by (simpl; by apply list_lookup_middle).
  rewrite (bind_ok _ _ _ _ _ (get_dict_ok _ _ _ Hst)).
  unfold stored. fold state.
  destruct (pickle_dumps state) as [[e written]|data];
    unfold bind, ret, raise, file_write, with_files; simpl;
    by rewrite insert_insert_eq.
Qed.

(** Every run of [store] adds at most the state copy to the heap. *)
Lemma store_heap self w :
  ∃ extra, heap (store self w).2 = heap w ++ extra.
Proof.
  destruct (heap w !! self) as [d|] eqn:Hd.
  2:{ exists []. unfold store, getattr.
      erewrite bind_raise; [by rewrite (right_id_L [] (++))|].
      apply bind_raise. unfold get_dict. by rewrite Hd. }
  destruct (d !! "_filename") as [v|] eqn:Hv.
  2:{ exists []. unfold store.
      erewrite bind_raise; [by rewrite (right_id_L [] (++))|].
      unfold getattr.
      rewrite (bind_ok _ _ _ _ _ (get_dict_ok _ _ _ Hd)). by rewrite Hv. }
  assert (∀ e, open_wb v w = (inl e, w) →
               ∃ extra, heap (store self w).2 = heap w ++ extra) as Hopen.
  { intros e He. exists []. unfold store.
    rewrite (bind_ok _ _ _ _ _ (getattr_ok _ _ _ _ _ Hd Hv)).
    erewrite bind_raise by done. by rewrite (right_id_L [] (++)). }
  destruct (as_path v) as [e|fn0] eqn:Hpath.
  { apply (Hopen e). unfold open_wb, bind. by rewrite Hpath. }
  destruct v as [|b|z|fn]; try done.
  { simpl in Hpath. by destruct (fits_int z), (bool_decide (z < 0)%Z). }
  clear fn0 Hpath.
  assert ((files w !! fn = None ∧ path_error fn w = None
           ∧ ends_in_dots fn = false) ∨
          (∃ old, files w !! fn = Some (RegularFile old)) →
          ∃ extra, heap (store self w).2 = heap w ++ extra) as Hwrite.
  { intros Hfile. exists [delete "_filename" d].
    rewrite (store_run _ _ _ _ Hd Hv Hfile).
    unfold stored. by destruct (pickle_dumps _) as [[e written]|data]. }
  destruct (files w !! fn) as [[| |old|en]|] eqn:Hfile;
    try (eapply Hopen; unfold open_wb, bind; simpl; by rewrite Hfile);
    [by eauto|].
  destruct (path_error fn w) as [e|] eqn:Herr.
  { eapply Hopen. unfold open_wb, bind. simpl. by rewrite Hfile, Herr. }
  destruct (ends_in_dots fn) eqn:Hdots; [|by auto].
  destruct (String.eqb (last_component fn) EmptyString
            && negb (String.eqb fn EmptyString)) eqn:Hslash;
    eapply Hopen; unfold open_wb, bind; simpl;
    by rewrite Hfile, Herr, Hdots, Hslash.
Qed.

(** A [store] that returned wrote the pickled state to the file. *)
Lemma store_inv self d fn w w1 :
  heap w !! self = Some d → d !! "_filename" = Some (PyStr fn) →
  store self w = (inr tt, w1) →
  ∃ data, pickle_dumps (delete "_filename" d) = inr data ∧
    w1 = World (<[fn:=RegularFile data]> (files w))
               (heap w ++ [delete "_filename" d]).
Proof.
  intros Hd Hfn Hrun.
  assert ((files w !! fn = None ∧ path_error fn w = None
           ∧ ends_in_dots fn = false) ∨
          (∃ old, files w !! fn = Some (RegularFile old)) →
          ∃ data, pickle_dumps (delete "_filename" d) = inr data ∧
            w1 = World (<[fn:=RegularFile data]> (files w))
                       (heap w ++ [delete "_filename" d])) as Hwrite.
  { intros Hfile. rewrite (store_run _ _ _ _ Hd Hfn Hfile) in Hrun.
    unfold stored in Hrun.
    destruct (pickle_dumps _) as [[e written]|data]; [done|].
    exists data. split; [done|]. congruence. }
  assert (∀ e, open_wb (PyStr fn) w = (inl e, w) → False) as Hopen.
  { intros e He. revert Hrun. unfold store.
    rewrite (bind_ok _ _ _ _ _ (getattr_ok _ _ _ _ _ Hd Hfn)).
    by rewrite (bind_raise _ _ _ _ _ He). }
  destruct (files w !! fn) as [[| |old|en]|] eqn:Hfile;
    try (exfalso; eapply Hopen; unfold open_wb, bind; simpl;
         by rewrite Hfile);
    [by eauto|].
  destruct (path_error fn w) as [e|] eqn:Herr.
  { exfalso. eapply Hopen. unfold open_wb, bind. simpl.
    by rewrite Hfile, Herr. }
  destruct (ends_in_dots fn) eqn:Hdots; [|by auto].
  exfalso.
  destruct (String.eqb (last_component fn) EmptyString
            && negb (String.eqb fn EmptyString)) eqn:Hslash;
    eapply Hopen; unfold open_wb, bind; simpl;
    by rewrite Hfile, Herr, Hdots, Hslash.
Qed.

Lemma kill_run self d fn w :
  heap w !! self = Some d → d !! "_filename" = Some (PyStr fn) →
  kill self w
  = match files w !! fn with
    | Some (LockedFile en) => (inl (OSError (Some en)), w)
    | _ => (inr tt, killed fn w)
    end.
Proof.
  intros Hd Hfn. unfold kill, killed.
  rewrite (bind_ok _ _ _ _ _ (getattr_ok _ _ _ _ _ Hd Hfn)).
  unfold bind at 1. simpl.
  destruct (files w !! fn) as [[| |old|en]|] eqn:Hfile; simpl; try done.
  - rewrite (bind_ok _ _ _ _ _ (getattr_ok _ _ _ _ _ Hd Hfn)).
    simpl. by rewrite Hfile.
  - rewrite (bind_ok _ _ _ _ _ (getattr_ok _ _ _ _ _ Hd Hfn)).
    simpl. by rewrite Hfile.
Qed.

Lemma killed_lookup fn w :
  files (killed fn w) !! fn
  = match files w !! fn with
    | Some (RegularFile _) => None
    | other => other
    end.
Proof.
  unfold killed.
  destruct (files w !! fn) as [[| |old|en]|] eqn:Hfile; try done.
  simpl. apply lookup_delete_eq.
Qed.

Lemma killed_heap fn w : heap (killed fn w) = heap w.
Proof. unfold killed. by destruct (files w !! fn) as [[| |old|en]|]. Qed.

(** Construction when the backing file does not exist. *)
Lemma construct_absent fn defaults w :
  names_nothing fn w →
  construct (PyStr fn) defaults w
  = (inr (length (heap w)),
     with_heap (heap w ++ [<["_filename":=PyStr fn]> defaults]) w).
Proof.
  intros Habs. rewrite construct_run.
  assert (heap (with_heap (heap w ++ [defaults]) w) !! length (heap w)
          = Some defaults) as Hnew by (simpl; by apply list_lookup_middle).
  rewrite (init_run _ _ _ _ Hnew). simpl.
  rewrite insert_app_r_alt, Nat.sub_diag by done. simpl.
  erewrite restore_absent; [done| |apply lookup_insert_eq|done].
  simpl. by apply list_lookup_middle.
Qed.

End Runs.

(** ** The rendering *)

Lemma elem_of_insert_sorted key keys k :
  k ∈ insert_sorted key keys ↔ k = key ∨ k ∈ keys.
Proof.
  induction keys as [|x rest IH]; simpl.
  - rewrite list_elem_of_singleton, elem_of_nil. tauto.
  - destruct (String.leb key x); rewrite !elem_of_cons, ?IH; tauto.
Qed.

Lemma elem_of_py_sorted keys k : k ∈ py_sorted keys ↔ k ∈ keys.
Proof.
  induction keys as [|x rest IH]; simpl; [done|].
  rewrite elem_of_insert_sorted, elem_of_cons, IH. tauto.
Qed.

Lemma unpack_pair_raises s e : unpack_pair s = inl e → e = ValueError.
Proof.
  destruct s as [|a [|b [|c s]]]; simpl; congruence.
Qed.

Lemma unpack_pair_length s :
  String.length s ≠ 2 → unpack_pair s = inl ValueError.
Proof. by destruct s as [|a [|b [|c s]]]. Qed.

Section Rendering.
Variable py_repr : pyval → string.

(** One item that is not two characters long makes the whole listing a
    [ValueError]. *)
Lemma str_lines_raises width keys k :
  k ∈ keys → String.length k ≠ 2 →
  str_lines py_repr width keys = inl ValueError.
Proof.
  intros Hin Hlen. induction keys as [|item rest IH]; [by inversion Hin|].
  simpl. destruct (unpack_pair item) as [e|[key value]] eqn:Hitem.
  - by rewrite (unpack_pair_raises _ _ Hitem).
  - apply elem_of_cons in Hin as [->|Hin].
    + by rewrite unpack_pair_length in Hitem.
    + by rewrite IH.
Qed.

Lemma str_raises self d w :
  heap w !! self = Some d → is_Some (d !! "_filename") →
  __str__ py_repr self w = (inl ValueError, w).
Proof.
  intros Hd [v Hv]. unfold __str__.
  rewrite (bind_ok _ _ _ _ _ (get_dict_ok _ _ _ Hd)).
  destruct (py_max _) as [e|width] eqn:Hmax.
  - unfold py_max in Hmax. destruct (_ <$> _); [|done].
    by injection Hmax as <-.
  - unfold bind at 1. simpl.
    rewrite (str_lines_raises width _ "_filename"); [done| |done].
    apply elem_of_py_sorted, list_elem_of_fmap.
    exists ("_filename", v). split; [done|]. by apply elem_of_map_to_list.
Qed.

End Rendering.

(** ** Paths *)







(** ** The persistence contract *)

Section Contract.
Context `{Pickler}.

(** C1. Merge correctness of [restore]: with [S] the record's keys and [P]
    the mapping loaded from the file, a key in both gets the persisted
    value, a key of [S] alone keeps its value, a key of [P] alone stays
    absent.  [P] is the stored state, which [store] writes without a
    ["_filename"] entry. *)
Theorem restore_merge_correct self (d : dict) fn data raw w :
  heap w !! self = Some d → d !! "_filename" = Some (PyStr fn) →
  files w !! fn = Some (RegularFile data) → pickle_loads data = inr raw →
  ∃ w' d',
    restore self w = (inr self, w') ∧ heap w' !! self = Some d' ∧
    let P := loaded_fields raw in
    (raw !! "_filename" = None → P = raw) ∧
    (∀ k, k ≠ "_filename" → P !! k = raw !! k) ∧
    ∀ k,
      (k ∈ dom d → k ∈ dom P → d' !! k = P !! k) ∧
      (k ∈ dom d → k ∉ dom P → d' !! k = d !! k) ∧
      (k ∈ dom P → k ∉ dom d → d' !! k = None).
Proof.
  intros Hd Hfn Hfile Hraw. eexists _, (restored d raw).
  split; [by eapply restore_ok|]. split.
  { simpl. apply list_lookup_insert_eq. rewrite length_app.
    apply lookup_lt_Some in Hd. lia. }
  simpl. split; [apply delete_id|].
  split; [intros k Hk; by apply lookup_delete_ne|].
  intros k. unfold restored. rewrite merge_map_lookup.
  rewrite !elem_of_dom. repeat split.
  - by intros [x ->] [y ->].
  - intros [x ->] HP. apply eq_None_not_Some in HP. by rewrite HP.
  - intros _ Hk. apply eq_None_not_Some in Hk. by rewrite Hk.
Qed.

(** C2. Schema closure: whatever the file holds, and whether [restore]
    returns or raises, the record's key set after the call is its key set
    before it; a record that construction returns has the keys of its
    defaults and the backing identifier, no more and no fewer. *)
Theorem schema_closure w :
  (∀ self (d : dict), heap w !! self = Some d →
     ∃ d', heap (restore self w).2 !! self = Some d' ∧ dom d' = dom d) ∧
  (∀ filename defaults self w',
     construct filename defaults w = (inr self, w') →
     ∃ d', heap w' !! self = Some d' ∧
           dom d' = {["_filename"]} ∪ dom defaults).
Proof.
  assert (∀ w self (d : dict), heap w !! self = Some d →
     ∃ d', heap (restore self w).2 !! self = Some d' ∧ dom d' = dom d)
    as Hrestore.
  { clear w. intros w self d Hd.
    destruct (restore_inv self w)
      as [[e ->]|(d0 & fn & data & raw & Hd0 & Hfn & Hfile & Hraw)].
    - by exists d.
    - rewrite (restore_ok _ _ _ _ _ _ Hd0 Hfn Hfile Hraw).
      assert (d0 = d) as -> by congruence.
      simpl. eexists. split.
      + apply list_lookup_insert_eq. rewrite length_app.
        apply lookup_lt_Some in Hd. lia.
      + apply merge_map_dom. }
  split; [by apply Hrestore|].
  intros filename defaults self w' Hrun. rewrite construct_run in Hrun.
  set (w1 := with_heap (heap w ++ [defaults]) w) in *.
  assert (heap w1 !! length (heap w) = Some defaults) as Hnew
    by (simpl; by apply list_lookup_middle).
  rewrite (init_run _ _ _ _ Hnew) in Hrun.
  set (w2 := with_heap _ w1) in *.
  assert (heap w2 !! length (heap w)
          = Some (<["_filename":=filename]> defaults)) as Hset.
  { simpl. apply list_lookup_insert_eq. rewrite length_app. simpl. lia. }
  destruct (Hrestore w2 _ _ Hset) as (d' & Hd' & Hdom).
  rewrite dom_insert_L in Hdom.
  destruct (restore _ w2) as [[e|r] w3]; simpl in *.
  - destruct (recovered e); [|done].
    injection Hrun as <- <-. by exists d'.
  - injection Hrun as <- <-. by exists d'.
Qed.

(** C3. Round trip: once [store] has returned, constructing a new store
    on the same file with the same schema gives a record equal to the one
    stored, field by field. *)
Theorem store_construct_roundtrip self (d : dict) fn w w1 (defaults : dict) :
  heap w !! self = Some d → d !! "_filename" = Some (PyStr fn) →
  store self w = (inr tt, w1) →
  dom (delete "_filename" defaults) = dom (delete "_filename" d) →
  ∃ self' w2,
    construct (PyStr fn) defaults w1 = (inr self', w2) ∧
    heap w2 !! self' = Some d.
Proof.
  intros Hd Hfn Hstore Hschema.
  destruct (store_inv _ _ _ _ _ Hd Hfn Hstore) as (data & Hdumps & ->).
  apply pickle_roundtrip in Hdumps.
  rewrite construct_run. simpl.
  set (h1 := heap w ++ [delete "_filename" d]).
  set (fs1 := <[fn:=RegularFile data]> (files w)).
  assert (heap (with_heap (h1 ++ [defaults]) (World fs1 h1)) !! length h1
          = Some defaults) as Hnew by (simpl; by apply list_lookup_middle).
  rewrite (init_run _ _ _ _ Hnew). simpl.
  rewrite insert_app_r_alt, Nat.sub_diag by done. simpl.
  set (d0 := <["_filename":=PyStr fn]> defaults).
  erewrite (restore_ok (length h1) d0 fn data); [| |apply lookup_insert_eq| |done].
  2:{ simpl. by apply list_lookup_middle. }
  2:{ simpl. apply lookup_insert_eq. }
  eexists _, _. split; [done|]. simpl.
  rewrite list_lookup_insert_eq by (rewrite !length_app; simpl; lia).
  f_equal. apply map_eq. intros k. unfold restored, loaded_fields.
  rewrite merge_map_lookup, delete_delete_eq. unfold d0.
  destruct (decide (k = "_filename")) as [->|Hk].
  - by rewrite lookup_insert_eq, lookup_delete_eq, Hfn.
  - rewrite lookup_insert_ne, lookup_delete_ne by done.
    assert (is_Some (defaults !! k) ↔ is_Some (d !! k)) as Hiff.
    { rewrite <- (lookup_delete_ne defaults "_filename" k) by done.
      rewrite <- (lookup_delete_ne d "_filename" k) by done.
      rewrite <- !elem_of_dom. by rewrite Hschema. }
    destruct (defaults !! k) as [x|] eqn:Hx, (d !! k) as [y|] eqn:Hy;
      try done.
    + destruct (proj1 Hiff) as [? [=]]. eauto.
    + destruct (proj2 Hiff) as [? [=]]. eauto.
Qed.

(** C4. Missing-file tolerance: construction on a path that does not exist
    returns, and the record holds the defaults as given together with the
    backing identifier; the files are untouched. *)
Theorem construct_missing_file fn (defaults : dict) w :
  absent fn w →
  ∃ self w',
    construct (PyStr fn) defaults w = (inr self, w') ∧
    heap w' !! self = Some (<["_filename":=PyStr fn]> defaults) ∧
    delete "_filename" (<["_filename":=PyStr fn]> defaults)
      = delete "_filename" defaults ∧
    files w' = files w.
Proof.
  intros [_ Habs]. eexists _, _. split; [by apply construct_absent|].
  split; [simpl; by apply list_lookup_middle|].
  split; [apply delete_insert_eq|done].
Qed.

(** C5. Error propagation at construction: when the restore attempt made
    by [__init__] raises, the exception reaches the caller as it is unless
    it is the not-found condition, which alone is recovered; a [restore]
    called directly raises not-found as well. *)
Theorem init_error_propagation :
  (∀ self (d : dict) filename w e w',
     heap w !! self = Some d →
     restore self
       (with_heap (<[self:=<["_filename":=filename]> d]> (heap w)) w)
     = (inl e, w') →
     (e ≠ NotFound → __init__ self filename w = (inl e, w')) ∧
     (e = NotFound → __init__ self filename w = (inr tt, w'))) ∧
  (∀ self (d : dict) fn w,
     heap w !! self = Some d → d !! "_filename" = Some (PyStr fn) →
     absent fn w → restore self w = (inl NotFound, w)).
Proof.
  split.
  - intros self d filename w e w' Hd Hrestore.
    rewrite (init_run _ _ _ _ Hd), Hrestore.
    pose proof (recovered_NotFound e) as Hrec.
    destruct (recovered e); split; intros He; try done.
    + destruct He. by apply Hrec.
    + by apply Hrec in He.
  - intros self d fn w Hd Hfn [_ Habs]. by eapply restore_absent.
Qed.



(** C9. [restore] preserves the backing identifier: whatever the file
    holds, a stored ["_filename"] entry included, and whether the call
    returns or raises, the record's ["_filename"] is what it was. *)
Theorem restore_preserves_filename self (d : dict) w :
  heap w !! self = Some d →
  ∃ d', heap (restore self w).2 !! self = Some d' ∧
        d' !! "_filename" = d !! "_filename".
Proof.
  intros Hd.
  destruct (restore_inv self w)
    as [[e ->]|(d0 & fn & data & raw & Hd0 & Hfn & Hfile & Hraw)].
  - by exists d.
  - rewrite (restore_ok _ _ _ _ _ _ Hd0 Hfn Hfile Hraw).
    assert (d0 = d) as -> by congruence.
    exists (restored d raw). split.
    + simpl. apply list_lookup_insert_eq. rewrite length_app.
      apply lookup_lt_Some in Hd. lia.
    + unfold restored, loaded_fields.
      by rewrite merge_map_lookup, lookup_delete_eq, Hfn.
Qed.

(** C10. [store] does not mutate the record: after the call, returned or
    raised, every dictionary that existed before it, the record's own
    among them, is what it was. *)
Theorem store_leaves_record self l (d : dict) w :
  heap w !! l = Some d → heap (store self w).2 !! l = Some d.
Proof.
  intros Hd. destruct (store_heap self w) as [extra ->].
  rewrite lookup_app_l; [done|]. by eapply lookup_lt_Some.
Qed.

End Contract.

(** ** The scenario, run *)

Example restore_foreign_state :
  (restore 0 saved_world).1 = inr 0 ∧
  heap (restore 0 saved_world).2 !! 0
  = Some {[ "_filename" := PyStr "app_settings"; "user_id" := PyStr "biden_joe";
            "target_server" := PyStr "whitehouse1" ]}.
Proof. split; vm_compute; reflexivity. Qed.

(** A field added to the schema takes its default; a field dropped from it
    is discarded. *)
Example reload_with_added_field :
  let w := (store 0 fresh_world).2 in
  let r := construct (PyStr "app_settings")
             (<["port":=PyInt 0]> settings_defaults) w in
  r.1 = inr 2 ∧
  heap r.2 !! 2 = Some (<["port":=PyInt 0]> settings).
Proof. split; vm_compute; reflexivity. Qed.

Example reload_with_removed_field :
  let w := (store 0 fresh_world).2 in
  let r := construct (PyStr "app_settings")
             {[ "user_id" := PyStr EmptyString ]} w in
  r.1 = inr 2 ∧
  heap r.2 !! 2 = Some (delete "target_server" settings).
Proof. split; vm_compute; reflexivity. Qed.

(** Bytes that do not unpickle: the decode error leaves construction as
    it is. *)
Example construct_undecodable_file :
  (construct (PyStr "app_settings") settings_defaults
     (World {[ "app_settings" := RegularFile [x02] ]} [])).1
  = inl (PickleError "invalid load key").
Proof. vm_compute. reflexivity. Qed.

(** Paths the platform refuses are not "not found": the exception of
    [open] leaves construction as it is. *)
Example construct_nul_path :
  (construct (PyStr (String "000"%char "a")) settings_defaults fresh_world).1
  = inl ValueError.
Proof. vm_compute. reflexivity. Qed.

Example construct_long_name :
  (construct (PyStr (string_of_list_ascii (replicate 256 "a"%char)))
     settings_defaults fresh_world).1
  = inl (OSError (Some errno.ENAMETOOLONG)).
Proof. vm_compute. reflexivity. Qed.

Example construct_under_a_file :
  (construct (PyStr "app_settings/x") settings_defaults saved_world).1
  = inl (OSError (Some errno.ENOTDIR)).
Proof. vm_compute. reflexivity. Qed.

Example construct_current_directory :
  (construct (PyStr ".") settings_defaults fresh_world).1
  = inl (OSError (Some errno.EISDIR)).
Proof. vm_compute. reflexivity. Qed.

(** A file that cannot be removed: [kill] passes the refusal on. *)
Example kill_locked_file :
  (kill 0 (World {[ "app_settings" := LockedFile errno.EACCES ]} [settings])).1
  = inl (OSError (Some errno.EACCES)).
Proof. vm_compute. reflexivity. Qed.

(** Deleting from the record's own dictionary, not from a copy, is seen by
    the record. *)
Example delitem_is_seen :
  heap (dict_delitem 0 "_filename" fresh_world).2 !! 0
  = Some (delete "_filename" settings).
Proof. vm_compute. reflexivity. Qed.

(** ** The contract on the scenario *)

Lemma restore_merge_correct_witness :
  ∃ w' d',
    restore 0 saved_world = (inr 0, w') ∧ heap w' !! 0 = Some d' ∧
    let P := loaded_fields foreign_state in
    (foreign_state !! "_filename" = None → P = foreign_state) ∧
    (∀ k, k ≠ "_filename" → P !! k = foreign_state !! k) ∧
    ∀ k,
      (k ∈ dom settings → k ∈ dom P → d' !! k = P !! k) ∧
      (k ∈ dom settings → k ∉ dom P → d' !! k = settings !! k) ∧
      (k ∈ dom P → k ∉ dom settings → d' !! k = None).
Proof.
  apply (restore_merge_correct 0 settings "app_settings" foreign_data
           foreign_state saved_world).
  - reflexivity.
  - reflexivity.
  - reflexivity.
  - vm_compute. reflexivity.
Defined.

Lemma schema_closure_witness :
  ∃ d', heap (restore 0 saved_world).2 !! 0 = Some d' ∧ dom d' = dom settings.
Proof.
  apply (proj1 (schema_closure saved_world) 0 settings). reflexivity.
Defined.

Lemma store_construct_roundtrip_witness :
  ∃ self' w2,
    construct (PyStr "app_settings") settings_defaults (store 0 fresh_world).2
    = (inr self', w2) ∧
    heap w2 !! self' = Some settings.
Proof.
  apply (store_construct_roundtrip 0 settings "app_settings" fresh_world
           (store 0 fresh_world).2 settings_defaults).
  - reflexivity.
  - reflexivity.
  - vm_compute. reflexivity.
  - vm_compute. reflexivity.
Defined.

Lemma construct_missing_file_witness :
  ∃ self w',
    construct (PyStr "app_settings") settings_defaults fresh_world
    = (inr self, w') ∧
    heap w' !! self
    = Some (<["_filename":=PyStr "app_settings"]> settings_defaults) ∧
    delete "_filename" (<["_filename":=PyStr "app_settings"]> settings_defaults)
    = delete "_filename" settings_defaults ∧
    files w' = files fresh_world.
Proof.
  apply (construct_missing_file "app_settings" settings_defaults fresh_world).
  split; [reflexivity|]. split; [vm_compute; reflexivity|left; reflexivity].
Defined.

(** A directory where the file should be: [open] raises [EISDIR], and
    construction passes it on. *)
Lemma init_error_propagation_witness :
  __init__ 0 (PyStr "app_settings") directory_world
  = (inl (OSError (Some errno.EISDIR)), directory_world).
Proof.
  refine (proj1 (proj1 init_error_propagation 0 settings
                   (PyStr "app_settings") directory_world
                   (OSError (Some errno.EISDIR)) directory_world _ _) _).
  - reflexivity.
  - vm_compute. reflexivity.
  - discriminate.
Defined.




(** C8. The rendering of the docstring's [Settings] record: [__str__]
    raises [ValueError] where one line per field is expected.  The loop
    takes [key, value] from [sorted(self.__dict__.keys())], so each key is
    unpacked character by character. *)
Theorem str_raises_on_settings (py_repr : pyval → string) :
  __str__ py_repr 0 fresh_world = (inl ValueError, fresh_world).
Proof. vm_compute. reflexivity. Qed.

(** Where every key has two characters and ["_filename"] is gone, the
    characters of the key are printed as key and value. *)
Example str_two_character_keys (py_repr : pyval → string) :
  (__str__ py_repr 0 (World ∅ [{[ "ab" := PyInt 1; "zq" := PyInt 2 ]}])).1
  = inr (join newline ["a  : " +:+ py_repr (PyStr "b");
                       "z  : " +:+ py_repr (PyStr "q")]).
Proof. vm_compute. reflexivity. Qed.

Lemma restore_preserves_filename_witness :
  ∃ d', heap (restore 0 saved_world).2 !! 0 = Some d' ∧
        d' !! "_filename" = settings !! "_filename".
Proof.
  apply (restore_preserves_filename 0 settings saved_world). reflexivity.
Defined.

Lemma store_leaves_record_witness :
  heap (store 0 fresh_world).2 !! 0 = Some settings.
Proof.
  apply (store_leaves_record 0 0 settings fresh_world). reflexivity.
Defined.

(** * Further properties *)

(** ** Helpers *)

Lemma lookup_insert_app_self {A} (h extra : list A) l x y :
  h !! l = Some y → <[l:=x]> (h ++ extra) !! l = Some x.
Proof.
  intros Hl. apply list_lookup_insert_eq. rewrite length_app.
  apply lookup_lt_Some in Hl. lia.
Qed.

Lemma lookup_insert_app_other {A} (h extra : list A) l self x y :
  l ≠ self → h !! l = Some y → <[self:=x]> (h ++ extra) !! l = Some y.
Proof.
  intros Hne Hl. rewrite list_lookup_insert_ne by done.
  rewrite lookup_app_l; [done|]. by eapply lookup_lt_Some.
Qed.

Lemma restored_lookup (d raw : dict) k :
  restored d raw !! k
  = match d !! k with
    | Some x => Some (if bool_decide (k = "_filename") then x
                      else default x (raw !! k))
    | None => None
    end.
Proof.
  unfold restored, loaded_fields. rewrite merge_map_lookup.
  destruct (d !! k) as [x|]; [|done]. f_equal. case_bool_decide as Hk.
  - subst k. by rewrite lookup_delete_eq.
  - by rewrite lookup_delete_ne.
Qed.

Section Cases.
Context `{Pickler}.

Lemma restore_cases self w :
  (∃ e, restore self w = (inl e, w)) ∨
  (∃ (d raw : dict),
      heap w !! self = Some d ∧
      restore self w
      = (inr self,
         with_heap (<[self:=restored d raw]>
                      (heap w ++ [loaded_fields raw; loaded_fields raw])) w)).
Proof.
  destruct (restore_inv self w)
    as [?|(d & fn & data & raw & Hd & Hfn & Hfile & Hraw)]; [by left|].
  right. exists d, raw. split; [done|]. by eapply restore_ok.
Qed.

Lemma construct_inv filename (defaults : dict) w self w' :
  construct filename defaults w = (inr self, w') →
  self = length (heap w) ∧ files w' = files w ∧
  (∀ l (d : dict), heap w !! l = Some d → heap w' !! l = Some d) ∧
  ∃ d' : dict, heap w' !! self = Some d' ∧
               d' !! "_filename" = Some filename.
Proof.
  intros Hrun. rewrite construct_run in Hrun.
  set (w1 := with_heap (heap w ++ [defaults]) w) in *.
  assert (heap w1 !! length (heap w) = Some defaults) as Hnew
    by (simpl; by apply list_lookup_middle).
  rewrite (init_run _ _ _ _ Hnew) in Hrun.
  set (d0 := <["_filename":=filename]> defaults) in *.
  set (w2 := with_heap _ w1) in *.
  assert (heap w2 !! length (heap w) = Some d0) as Hset.
  { simpl. apply list_lookup_insert_eq. rewrite length_app. simpl. lia. }
  assert (∀ l (d : dict), heap w !! l = Some d → heap w2 !! l = Some d)
    as Hold.
  { intros l d Hl. simpl. eapply lookup_insert_app_other; [|done].
    apply lookup_lt_Some in Hl. lia. }
  destruct (restore_cases (length (heap w)) w2)
    as [[e He]|(d & raw & Hd & Hok)].
  - rewrite He in Hrun. destruct (recovered e); [|done].
    injection Hrun as <- <-. repeat split; [done|].
    exists d0. split; [done|]. apply lookup_insert_eq.
  - rewrite Hok in Hrun. injection Hrun as <- <-.
    assert (d = d0) as -> by congruence.
    repeat split.
    + intros l d Hl. simpl. eapply lookup_insert_app_other.
      * apply lookup_lt_Some in Hl. lia.
      * by apply Hold.
    + exists (restored d0 raw). split.
      * simpl. by eapply lookup_insert_app_self.
      * rewrite restored_lookup. unfold d0. by rewrite lookup_insert_eq.
Qed.

End Cases.

(** ** restore *)

Section Further.
Context `{Pickler}.

(** X1. What [restore] raises is decided by what the path names: not-found
    for an absent path, [EISDIR] for a directory, and for a file that does
    not unpickle the unpickler's own exception; nothing changes. *)
Theorem restore_raises self (d : dict) fn w :
  heap w !! self = Some d → d !! "_filename" = Some (PyStr fn) →
  (absent fn w → restore self w = (inl NotFound, w)) ∧
  (files w !! fn = Some Directory →
   restore self w = (inl (OSError (Some errno.EISDIR)), w)) ∧
  (∀ data e, files w !! fn = Some (RegularFile data) →
     pickle_loads data = inl e → restore self w = (inl e, w)).
Proof.
  intros Hd Hfn. split; [intros [_ Habs]; by eapply restore_absent|]. split.
  - intros Hdir. unfold restore.
    rewrite (bind_ok _ _ _ _ _ (getattr_ok _ _ _ _ _ Hd Hfn)).
    apply bind_raise. unfold open_rb, bind. simpl. by rewrite Hdir.
  - intros data e Hfile Hraw. unfold restore.
    rewrite (bind_ok _ _ _ _ _ (getattr_ok _ _ _ _ _ Hd Hfn)).
    rewrite (bind_ok _ _ _ _ _ (open_rb_ok _ _ _ Hfile)).
    by apply bind_raise, pickle_load_raise.
Qed.

(** X2. [restore] never writes a file and never alters another
    dictionary; a [restore] that raises leaves the whole world, the record
    included, as it was. *)
Theorem restore_frame self w :
  files (restore self w).2 = files w ∧
  (∀ l (d : dict), l ≠ self → heap w !! l = Some d →
     heap (restore self w).2 !! l = Some d) ∧
  (∀ e w', restore self w = (inl e, w') → w' = w).
Proof.
  destruct (restore_cases self w) as [[e0 He]|(d & raw & Hd & Hok)].
  - rewrite He. repeat split; [done|]. by intros e w' [= _ <-].
  - rewrite Hok. repeat split; [|done].
    intros l d0 Hne Hl. simpl. by eapply lookup_insert_app_other.
Qed.

(** X3. [restore] is idempotent: with the file unchanged, a second call
    returns and leaves the record as the first one made it. *)
Theorem restore_idempotent self w r w1 :
  restore self w = (inr r, w1) →
  ∃ w2, restore self w1 = (inr self, w2) ∧
        heap w2 !! self = heap w1 !! self.
Proof.
  intros Hrun.
  destruct (restore_inv self w)
    as [[e He]|(d & fn & data & raw & Hd & Hfn & Hfile & Hraw)];
    [congruence|].
  rewrite (restore_ok _ _ _ _ _ _ Hd Hfn Hfile Hraw) in Hrun.
  injection Hrun as <- <-.
  set (w1 := with_heap _ w).
  assert (heap w1 !! self = Some (restored d raw)) as Hd1
    by (simpl; by eapply lookup_insert_app_self).
  assert (restored d raw !! "_filename" = Some (PyStr fn)) as Hfn1
    by (by rewrite restored_lookup, Hfn).
  eexists. split; [by eapply (restore_ok self _ fn data raw w1)|].
  rewrite Hd1. simpl.
  erewrite lookup_insert_app_self by done. f_equal.
  apply map_eq. intros k. rewrite !restored_lookup.
  destruct (d !! k) as [x|]; [|done]. f_equal.
  case_bool_decide; [done|]. by destruct (raw !! k).
Qed.

(** X4. The merge does not depend on the order in which the loaded
    dictionary is iterated: any ordering of its items leaves the same
    world. *)
Theorem update_present_permutation self (d P : dict) items w :
  heap w !! self = Some d → items ≡ₚ map_to_list P →
  update_present self items w = update_present self (map_to_list P) w.
Proof.
  intros Hd Hperm. rewrite !(update_present_run _ _ _ _ Hd).
  do 3 f_equal. apply map_eq. intros k.
  assert (NoDup items.*1) as Hnd.
  { rewrite Hperm. apply NoDup_fst_map_to_list. }
  rewrite merge_items_lookup by done.
  rewrite merge_items_lookup by apply NoDup_fst_map_to_list.
  by rewrite (list_to_map_proper items (map_to_list P)).
Qed.

(** X5. [restore] undoes unsaved changes: after a [store] that returned,
    whatever values the fields have taken since (no field added or removed,
    the identifier and the file as they were), [restore] brings back the
    record as it was stored. *)
Theorem store_then_restore self (d d2 : dict) fn w w1 w2 :
  heap w !! self = Some d → d !! "_filename" = Some (PyStr fn) →
  store self w = (inr tt, w1) →
  files w2 = files w1 → heap w2 !! self = Some d2 →
  dom d2 = dom d → d2 !! "_filename" = Some (PyStr fn) →
  ∃ w3, restore self w2 = (inr self, w3) ∧ heap w3 !! self = Some d.
Proof.
  intros Hd Hfn Hstore Hfiles Hd2 Hdom Hfn2.
  destruct (store_inv _ _ _ _ _ Hd Hfn Hstore) as (data & Hdumps & ->).
  apply pickle_roundtrip in Hdumps.
  assert (files w2 !! fn = Some (RegularFile data)) as Hfile
    by (rewrite Hfiles; simpl; apply lookup_insert_eq).
  eexists. split; [by eapply restore_ok|].
  simpl. erewrite lookup_insert_app_self by done. f_equal.
  apply map_eq. intros k. rewrite restored_lookup.
  assert (is_Some (d2 !! k) ↔ is_Some (d !! k)) as Hiff
    by (by rewrite <- !elem_of_dom, Hdom).
  case_bool_decide as Hk.
  - subst k. by rewrite Hfn2, Hfn.
  - rewrite lookup_delete_ne by done.
    destruct (d2 !! k) as [x|], (d !! k) as [y|]; try done.
    + destruct (proj1 Hiff) as [? [=]]. eauto.
    + destruct (proj2 Hiff) as [? [=]]. eauto.
Qed.

(** X6. Reloading under a changed schema: after a [store] that returned,
    constructing on the same file with any defaults gives a record with
    the backing identifier, the stored value for each default that was
    stored, the default for each that was not, and nothing else. *)
Theorem reload_changed_schema self (d defaults : dict) fn w w1 :
  heap w !! self = Some d → d !! "_filename" = Some (PyStr fn) →
  store self w = (inr tt, w1) →
  ∃ self' w2 (d' : dict),
    construct (PyStr fn) defaults w1 = (inr self', w2) ∧
    heap w2 !! self' = Some d' ∧
    d' !! "_filename" = Some (PyStr fn) ∧
    ∀ k, k ≠ "_filename" →
      d' !! k = match defaults !! k with
                | Some x => Some (default x (d !! k))
                | None => None
                end.
Proof.
  intros Hd Hfn Hstore.
  destruct (store_inv _ _ _ _ _ Hd Hfn Hstore) as (data & Hdumps & ->).
  apply pickle_roundtrip in Hdumps.
  rewrite construct_run. simpl.
  set (h1 := heap w ++ [delete "_filename" d]).
  set (fs1 := <[fn:=RegularFile data]> (files w)).
  assert (heap (with_heap (h1 ++ [defaults]) (World fs1 h1)) !! length h1
          = Some defaults) as Hnew by (simpl; by apply list_lookup_middle).
  rewrite (init_run _ _ _ _ Hnew). simpl.
  rewrite insert_app_r_alt, Nat.sub_diag by done. simpl.
  set (d0 := <["_filename":=PyStr fn]> defaults).
  erewrite (restore_ok (length h1) d0 fn data); [| |apply lookup_insert_eq| |done].
  2:{ simpl. by apply list_lookup_middle. }
  2:{ simpl. apply lookup_insert_eq. }
  eexists _, _, (restored d0 (delete "_filename" d)).
  split; [done|]. split.
  { simpl. apply list_lookup_insert_eq. rewrite !length_app. simpl. lia. }
  split.
  - rewrite restored_lookup. unfold d0. by rewrite lookup_insert_eq.
  - intros k Hk. rewrite restored_lookup. unfold d0.
    rewrite lookup_insert_ne, lookup_delete_ne by done.
    by rewrite bool_decide_false.
Qed.

(** ** construct, store, kill *)

(** X7. A record that construction returns is a new object holding the
    identifier it was constructed with, whatever the defaults or the file
    said; no file is written and no existing dictionary is altered. *)
Theorem construct_fresh_record filename (defaults : dict) w self w' :
  construct filename defaults w = (inr self, w') →
  heap w !! self = None ∧ files w' = files w ∧
  (∀ l (d : dict), heap w !! l = Some d → heap w' !! l = Some d) ∧
  ∃ d' : dict, heap w' !! self = Some d' ∧
               d' !! "_filename" = Some filename.
Proof.
  intros Hrun. destruct (construct_inv _ _ _ _ _ Hrun) as (-> & ? & ? & ?).
  split; [by apply lookup_ge_None|]. done.
Qed.

(** X8. A [store] whose pickling fails raises the pickler's exception and
    leaves in the file only what the pickler had written by then: the
    former content is gone. *)
Theorem store_failed_dump self (d : dict) fn old e written w :
  heap w !! self = Some d → d !! "_filename" = Some (PyStr fn) →
  files w !! fn = Some (RegularFile old) →
  pickle_dumps (delete "_filename" d) = inl (e, written) →
  (store self w).1 = inl e ∧
  files (store self w).2 !! fn = Some (RegularFile written).
Proof.
  intros Hd Hfn Hfile Hdumps. rewrite (store_run _ _ _ _ Hd Hfn) by eauto.
  unfold stored. rewrite Hdumps. simpl. split; [done|].
  apply lookup_insert_eq.
Qed.


(** X10. A record whose ["_filename"] attribute is gone: [restore],
    [store] and [kill] each raise [AttributeError] and change nothing. *)
Theorem methods_need_filename self (d : dict) w :
  heap w !! self = Some d → d !! "_filename" = None →
  restore self w = (inl (AttributeError "_filename"), w) ∧
  store self w = (inl (AttributeError "_filename"), w) ∧
  kill self w = (inl (AttributeError "_filename"), w).
Proof.
  intros Hd Hfn.
  assert (getattr self "_filename" w = (inl (AttributeError "_filename"), w))
    as Hget.
  { unfold getattr. rewrite (bind_ok _ _ _ _ _ (get_dict_ok _ _ _ Hd)).
    by rewrite Hfn. }
  repeat split; by apply bind_raise.
Qed.

(** X11. [kill] alters no dictionary, whether it returns or raises; where
    the path names no regular file it does nothing; where [os.remove] is
    refused, that [OSError] reaches the caller and nothing changes; after a
    [kill] that returned, [os.path.isfile] on the path is false. *)
Theorem kill_frame self (d : dict) fn w :
  heap w !! self = Some d → d !! "_filename" = Some (PyStr fn) →
  heap (kill self w).2 = heap w ∧
  (is_regular (files w !! fn) = false → kill self w = (inr tt, w)) ∧
  (∀ en, files w !! fn = Some (LockedFile en) →
     kill self w = (inl (OSError (Some en)), w)) ∧
  (∀ w', kill self w = (inr tt, w') →
     os_path_isfile (PyStr fn) w' = (inr false, w')).
Proof.
  intros Hd Hfn. rewrite (kill_run _ _ _ _ Hd Hfn). repeat split.
  - destruct (files w !! fn) as [[| |old|en]|]; try done;
      apply killed_heap.
  - unfold killed. by destruct (files w !! fn) as [[| |old|en]|].
  - by intros en ->.
  - intros w' Hrun. unfold os_path_isfile.
    assert (w' = killed fn w ∧ ∀ en, files w !! fn ≠ Some (LockedFile en))
      as [-> Hfree].
    { destruct (files w !! fn) as [[| |old|en]|]; by simplify_eq. }
    rewrite killed_lookup.
    by destruct (files w !! fn) as [[| |old|en]|] eqn:Hfile.
Qed.

(** ** __getstate__ and __setstate__ *)

(** X12. [__getstate__] hands out a new dictionary, never the record's
    own, and alters none that exists; on a record without ["_filename"] it
    raises [KeyError]. *)
Theorem getstate_fresh_copy self (d : dict) w :
  heap w !! self = Some d →
  (d !! "_filename" = None →
   (__getstate__ self w).1 = inl (KeyError "_filename")) ∧
  (∀ st w1, __getstate__ self w = (inr st, w1) →
     heap w !! st = None ∧ files w1 = files w) ∧
  (∀ l (d0 : dict), heap w !! l = Some d0 →
     heap (__getstate__ self w).2 !! l = Some d0).
Proof.
  intros Hd. destruct (d !! "_filename") as [v|] eqn:Hv.
  - rewrite (getstate_run _ _ _ Hd (mk_is_Some _ _ Hv)).
    split; [done|]. split.
    + intros st w1 [= <- <-]. split; [by apply lookup_ge_None|done].
    + intros l d0 Hl. simpl. rewrite lookup_app_l; [done|].
      by eapply lookup_lt_Some.
  - rewrite (getstate_raise _ _ _ Hd Hv). split; [done|]. split; [done|].
    intros l d0 Hl. simpl. rewrite lookup_app_l; [done|].
    by eapply lookup_lt_Some.
Qed.

(** X13. [__setstate__] copies every entry of the state but ["_filename"]
    into the instance, over what it has; the instance's own ["_filename"]
    stays, and the caller's state dictionary itself loses the entry. *)
Theorem setstate_merges self state (d raw : dict) w :
  self ≠ state → heap w !! self = Some d → heap w !! state = Some raw →
  ∃ w',
    __setstate__ self state w = (inr tt, w') ∧ files w' = files w ∧
    heap w' !! self = Some (loaded_fields raw ∪ d) ∧
    heap w' !! state = Some (loaded_fields raw) ∧
    (loaded_fields raw ∪ d) !! "_filename" = d !! "_filename".
Proof.
  intros Hne Hself Hstate. unfold __setstate__.
  rewrite (bind_ok _ _ _ _ _ (dict_contains_ok _ _ "_filename" _ Hstate)).
  set (w1 := with_heap (<[state:=loaded_fields raw]> (heap w)) w).
  assert ((if bool_decide (is_Some (raw !! "_filename"))
           then dict_delitem state "_filename" else ret tt) w
          = (inr tt, w1)) as Hstep.
  { case_bool_decide as Hin.
    - destruct Hin as [v Hv]. unfold dict_delitem.
      rewrite (bind_ok _ _ _ _ _ (get_dict_ok _ _ _ Hstate)), Hv.
      by eapply set_dict_ok.
    - unfold ret, w1, loaded_fields. rewrite delete_id.
      + rewrite list_insert_id by done. by rewrite with_heap_id.
      + by apply eq_None_not_Some. }
  rewrite (bind_ok _ _ _ _ _ Hstep). unfold dict_update.
  assert (heap w1 !! state = Some (loaded_fields raw)) as Hs1.
  { simpl. apply list_lookup_insert_eq. by eapply lookup_lt_Some. }
  assert (heap w1 !! self = Some d) as Hi1.
  { simpl. by rewrite list_lookup_insert_ne. }
  rewrite (bind_ok _ _ _ _ _ (get_dict_ok _ _ _ Hs1)).
  rewrite (bind_ok _ _ _ _ _ (get_dict_ok _ _ _ Hi1)).
  rewrite (set_dict_ok _ _ _ _ Hi1).
  eexists. split; [done|]. split; [done|]. simpl. split; [|split].
  - apply list_lookup_insert_eq. rewrite length_insert.
    by eapply lookup_lt_Some.
  - rewrite list_lookup_insert_ne by done.
    apply list_lookup_insert_eq. by eapply lookup_lt_Some.
  - rewrite lookup_union_r; [done|]. apply lookup_delete_eq.
Qed.

End Further.

(** ** __str__ and __repr__ *)

Section FurtherRendering.
Context `{Pickler}.
Variable py_repr : pyval → string.
Variable class_name : string.

(** X15. Every record that construction returns has a [repr], the class
    name and the identifier, and no [str]: [__str__] raises
    [ValueError]. *)
Theorem constructed_repr_not_str filename (defaults : dict) w self w' :
  construct filename defaults w = (inr self, w') →
  __repr__ py_repr class_name self w'
  = (inr (class_name +:+ "(" +:+ py_repr filename +:+ ")"), w') ∧
  __str__ py_repr self w' = (inl ValueError, w').
Proof.
  intros Hrun.
  destruct (construct_inv _ _ _ _ _ Hrun) as (_ & _ & _ & d' & Hd' & Hfn).
  split.
  - unfold __repr__.
    by rewrite (bind_ok _ _ _ _ _ (getattr_ok _ _ _ _ _ Hd' Hfn)).
  - by eapply str_raises.
Qed.

End FurtherRendering.

(** ** The further properties on the scenario *)

Lemma restore_raises_witness :
  restore 0 directory_world
  = (inl (OSError (Some errno.EISDIR)), directory_world).
Proof.
  apply (proj1 (proj2 (restore_raises 0 settings "app_settings"
                         directory_world eq_refl eq_refl))).
  reflexivity.
Defined.

Lemma restore_frame_witness :
  heap (restore 0 (World (files saved_world) [settings; settings_defaults])).2
    !! 1 = Some settings_defaults.
Proof.
  apply (proj1 (proj2 (restore_frame 0
           (World (files saved_world) [settings; settings_defaults])))).
  - discriminate.
  - reflexivity.
Defined.

Lemma restore_idempotent_witness :
  ∃ w2, restore 0 (restore 0 saved_world).2 = (inr 0, w2) ∧
        heap w2 !! 0 = heap (restore 0 saved_world).2 !! 0.
Proof.
  apply (restore_idempotent 0 saved_world 0 (restore 0 saved_world).2).
  vm_compute. reflexivity.
Defined.

Lemma update_present_permutation_witness :
  update_present 0 (reverse (map_to_list foreign_state)) fresh_world
  = update_present 0 (map_to_list foreign_state) fresh_world.
Proof.
  apply (update_present_permutation 0 settings foreign_state).
  - reflexivity.
  - apply reverse_Permutation.
Defined.

Lemma store_then_restore_witness :
  ∃ w3,
    restore 0 (World (files (store 0 fresh_world).2)
                 [<["user_id":=PyStr "vanrossum_g"]> settings])
    = (inr 0, w3) ∧
    heap w3 !! 0 = Some settings.
Proof.
  apply (store_then_restore 0 settings
           (<["user_id":=PyStr "vanrossum_g"]> settings) "app_settings"
           fresh_world (store 0 fresh_world).2).
  - reflexivity.
  - reflexivity.
  - vm_compute. reflexivity.
  - reflexivity.
  - reflexivity.
  - vm_compute. reflexivity.
  - reflexivity.
Defined.

Lemma reload_changed_schema_witness :
  ∃ self' w2 (d' : dict),
    construct (PyStr "app_settings")
      {[ "user_id" := PyStr EmptyString; "port" := PyInt 0 ]}
      (store 0 fresh_world).2 = (inr self', w2) ∧
    heap w2 !! self' = Some d' ∧
    d' !! "_filename" = Some (PyStr "app_settings") ∧
    ∀ k, k ≠ "_filename" →
      d' !! k
      = match ({[ "user_id" := PyStr EmptyString; "port" := PyInt 0 ]} : dict)
              !! k with
        | Some x => Some (default x (settings !! k))
        | None => None
        end.
Proof.
  apply (reload_changed_schema 0 settings _ "app_settings" fresh_world).
  - reflexivity.
  - reflexivity.
  - vm_compute. reflexivity.
Defined.

Lemma construct_fresh_record_witness :
  heap saved_world !! 1 = None ∧
  files (construct (PyStr "app_settings") settings_defaults saved_world).2
  = files saved_world ∧
  (∀ l (d : dict), heap saved_world !! l = Some d →
     heap (construct (PyStr "app_settings") settings_defaults saved_world).2
       !! l = Some d) ∧
  ∃ d' : dict,
    heap (construct (PyStr "app_settings") settings_defaults saved_world).2
      !! 1 = Some d' ∧
    d' !! "_filename" = Some (PyStr "app_settings").
Proof.
  apply (construct_fresh_record (PyStr "app_settings") settings_defaults
           saved_world 1).
  vm_compute. reflexivity.
Defined.

Lemma store_failed_dump_witness :
  (@store refusing_pickler 0 saved_world).1
  = inl (PickleError "cannot pickle") ∧
  files (@store refusing_pickler 0 saved_world).2 !! "app_settings"
  = Some (RegularFile [x80; x04]).
Proof.
  apply (@store_failed_dump refusing_pickler 0 settings "app_settings"
           foreign_data).
  - reflexivity.
  - reflexivity.
  - reflexivity.
  - reflexivity.
Defined.


Lemma methods_need_filename_witness :
  restore 0 (World ∅ [settings_defaults])
  = (inl (AttributeError "_filename"), World ∅ [settings_defaults]) ∧
  store 0 (World ∅ [settings_defaults])
  = (inl (AttributeError "_filename"), World ∅ [settings_defaults]) ∧
  kill 0 (World ∅ [settings_defaults])
  = (inl (AttributeError "_filename"), World ∅ [settings_defaults]).
Proof.
  apply (methods_need_filename 0 settings_defaults).
  - reflexivity.
  - reflexivity.
Defined.

Lemma kill_frame_witness :
  kill 0 (World {[ "app_settings" := LockedFile errno.EACCES ]} [settings])
  = (inl (OSError (Some errno.EACCES)),
     World {[ "app_settings" := LockedFile errno.EACCES ]} [settings]).
Proof.
  apply (proj1 (proj2 (proj2 (kill_frame 0 settings "app_settings"
           (World {[ "app_settings" := LockedFile errno.EACCES ]} [settings])
           eq_refl eq_refl)))).
  reflexivity.
Defined.

Lemma getstate_fresh_copy_witness :
  (settings !! "_filename" = None →
   (__getstate__ 0 fresh_world).1 = inl (KeyError "_filename")) ∧
  (∀ st w1, __getstate__ 0 fresh_world = (inr st, w1) →
     heap fresh_world !! st = None ∧ files w1 = files fresh_world) ∧
  (∀ l (d0 : dict), heap fresh_world !! l = Some d0 →
     heap (__getstate__ 0 fresh_world).2 !! l = Some d0).
Proof.
  apply (getstate_fresh_copy 0 settings fresh_world). reflexivity.
Defined.

Lemma setstate_merges_witness :
  ∃ w',
    __setstate__ 0 1 (World ∅ [settings; foreign_state]) = (inr tt, w') ∧
    files w' = ∅ ∧
    heap w' !! 0 = Some (loaded_fields foreign_state ∪ settings) ∧
    heap w' !! 1 = Some (loaded_fields foreign_state) ∧
    (loaded_fields foreign_state ∪ settings) !! "_filename"
    = settings !! "_filename".
Proof.
  apply (setstate_merges 0 1 settings foreign_state
           (World ∅ [settings; foreign_state])).
  - discriminate.
  - reflexivity.
  - reflexivity.
Defined.

Lemma constructed_repr_not_str_witness :
  __repr__ (λ _, "'app_settings'") "Settings" 1
    (construct (PyStr "app_settings") settings_defaults saved_world).2
  = (inr ("Settings" +:+ "(" +:+ "'app_settings'" +:+ ")"),
     (construct (PyStr "app_settings") settings_defaults saved_world).2) ∧
  __str__ (λ _, "'app_settings'") 1
    (construct (PyStr "app_settings") settings_defaults saved_world).2
  = (inl ValueError,
     (construct (PyStr "app_settings") settings_defaults saved_world).2).
Proof.
  apply (constructed_repr_not_str (λ _, "'app_settings'") "Settings"
           (PyStr "app_settings") settings_defaults saved_world 1).
  vm_compute. reflexivity.
Defined.
